(** * uploadthing / packages/react/src/component.tsx

    A shallow embedding of the label formatter, the permitted-file-info
    derivation and the callback wiring of the two upload widgets, together
    with the properties stated about them.

    Conventions of the embedding.
    - A JavaScript string is a [string]; the case mapping is the ASCII one
      (file-type keys are MIME types and category names, which are ASCII).
    - A JavaScript number holding a file count is an integer [Z]; its
      rendering in a template literal is the decimal numeral, as
      [Number.prototype.toString] gives for every integer of the safe range.
    - An [ExpandedRouteConfig] object is the list of its own properties in
      the order [Object.keys] enumerates them.
    - A call that may throw returns a [completion]. *)

From Stdlib Require Import ZArith List Bool Ascii String DecimalString Lia.
Import ListNotations.

Open Scope string_scope.
Open Scope Z_scope.

(** ** Completions: normal return or a thrown exception *)

Inductive JSError : Type :=
| TypeError.

Inductive completion (A : Type) : Type :=
| Normal (a : A)
| Throw (e : JSError).

Arguments Normal {A} a.
Arguments Throw {A} e.

Definition bind {A B : Type} (c : completion A) (k : A -> completion B)
  : completion B :=
  match c with
  | Normal a => k a
  | Throw e => Throw e
  end.

Notation "x <- c ;; k" := (bind c (fun x => k))
  (at level 61, c at next level, right associativity).

(** ** The JavaScript primitives the file uses *)

Module JS.

(** Values an expression [v && v > 1] over an optional number can take. *)
Inductive value : Type :=
| VUndefined
| VNumber (n : Z)
| VBoolean (b : bool).

(** ToBoolean on those values. *)
Definition truthy (v : value) : bool :=
  match v with
  | VUndefined => false
  | VNumber n => negb (n =? 0)
  | VBoolean b => b
  end.

(** [String.prototype.charAt]: the one-character string at [n], or the
    empty string when [n] is out of range. *)
Fixpoint charAt (s : string) (n : nat) : string :=
  match s, n with
  | EmptyString, _ => ""
  | String c _, O => String c ""
  | String _ r, S m => charAt r m
  end.

(** [String.prototype.slice] with a single non-negative start index. *)
Fixpoint slice (s : string) (n : nat) {struct n} : string :=
  match n, s with
  | O, _ => s
  | S _, EmptyString => ""
  | S m, String _ r => slice r m
  end.

Definition toUpperCase_char (c : ascii) : ascii :=
  let n := nat_of_ascii c in
  if (Nat.leb 97 n && Nat.leb n 122)%bool
  then ascii_of_nat (n - 32)
  else c.

(** [String.prototype.toUpperCase]. *)
Fixpoint toUpperCase (s : string) : string :=
  match s with
  | EmptyString => ""
  | String c r => String (toUpperCase_char c) (toUpperCase r)
  end.

(** [String.prototype.includes] for a one-character needle. *)
Fixpoint includes (s : string) (sep : ascii) : bool :=
  match s with
  | EmptyString => false
  | String c r => if Ascii.eqb c sep then true else includes r sep
  end.

(** [String.prototype.split] for a one-character separator. *)
Fixpoint split (s : string) (sep : ascii) : list string :=
  match s with
  | EmptyString => [""]
  | String c r =>
      if Ascii.eqb c sep then "" :: split r sep
      else match split r sep with
           | [] => [String c ""]
           | h :: t => String c h :: t
           end
  end.

(** [Array.prototype.join]. *)
Fixpoint join (l : list string) (sep : string) : string :=
  match l with
  | [] => ""
  | [x] => x
  | x :: r => x ++ sep ++ join r sep
  end.

(** [Array.prototype.pop]: the array without its last element and the
    element removed ([None] is [undefined], for an empty array). *)
Fixpoint pop {A : Type} (l : list A) : list A * option A :=
  match l with
  | [] => ([], None)
  | [x] => ([], Some x)
  | x :: r => let '(r', o) := pop r in (x :: r', o)
  end.

(** Indexing an array: [undefined] out of range. *)
Definition index {A : Type} (l : list A) (n : nat) : option A :=
  nth_error l n.

(** [Number.prototype.toString] on an integer. *)
Definition Number_toString (n : Z) : string :=
  NilZero.string_of_int (Z.to_int n).

(** A string-or-undefined inside a template literal. *)
Definition template (o : option string) : string :=
  match o with
  | Some s => s
  | None => "undefined"
  end.

(** A number-or-undefined inside a template literal. *)
Definition template_number (o : option Z) : string :=
  match o with
  | Some n => Number_toString n
  | None => "undefined"
  end.

(** A method call on a string-or-undefined receiver. *)
Definition method {A : Type} (o : option string) (m : string -> A)
  : completion A :=
  match o with
  | Some s => Normal (m s)
  | None => Throw TypeError
  end.

(** [Array.prototype.map] with a callback that may throw. *)
Fixpoint map {A B : Type} (f : A -> completion B) (l : list A)
  : completion (list B) :=
  match l with
  | [] => Normal []
  | x :: r => y <- f x ;; ys <- map f r ;; Normal (y :: ys)
  end.

(** [Array.prototype.some]. *)
Definition some {A : Type} (f : A -> value) (l : list A) : bool :=
  existsb (fun x => truthy (f x)) l.

End JS.

(** ** The route configuration *)

(** The limits of one file type: [{ maxFileSize, maxFileCount? }]. *)
Record RouteLimits : Type := mkLimits {
  maxFileSize : string;
  maxFileCount : option Z
}.

Definition ExpandedRouteConfig : Type := list (string * RouteLimits).

Definition Object_keys (config : ExpandedRouteConfig) : list string :=
  List.map fst config.

Definition Object_values (config : ExpandedRouteConfig) : list RouteLimits :=
  List.map snd config.

(** [config[key]] on own properties; an [undefined] key is looked up under
    the property name it converts to. *)
Fixpoint own_property (config : ExpandedRouteConfig) (name : string)
  : option RouteLimits :=
  match config with
  | [] => None
  | (k, v) :: r => if String.eqb k name then Some v else own_property r name
  end.

Definition Object_get (config : ExpandedRouteConfig) (key : option string)
  : option RouteLimits :=
  own_property config (JS.template key).

(** The test [v && v > 1] of lines 31 and 61. *)
Definition and_gt_one (v : option Z) : JS.value :=
  match v with
  | None => JS.VUndefined
  | Some n => if JS.truthy (JS.VNumber n) then JS.VBoolean (1 <? n)
              else JS.VNumber n
  end.

(** ** generatePermittedFileTypes (lines 24-32) *)

Record PermittedFileTypes : Type := mkPermitted {
  fileTypes : list string;
  multiple : bool
}.

Definition generatePermittedFileTypes (config : option ExpandedRouteConfig)
  : PermittedFileTypes :=
  let fileTypes :=
    match config with Some c => Object_keys c | None => [] end in
  let maxFileCount :=
    match config with
    | Some c => List.map (fun v => maxFileCount v) (Object_values c)
    | None => []
    end in
  mkPermitted fileTypes (JS.some and_gt_one maxFileCount).

(** ** capitalizeStart (lines 34-36) *)

Definition capitalizeStart (str : string) : string :=
  JS.toUpperCase (JS.charAt str 0) ++ JS.slice str 1.

(** ** INTERNAL_doFormatting (lines 38-66) *)

Definition slash : ascii := "/"%char.

(** The callback of [allowedTypes.map] (lines 43-46). *)
Definition formatType (f : string) : completion string :=
  if JS.includes f slash then
    up <- JS.method (JS.index (JS.split f slash) 1) JS.toUpperCase ;;
    Normal (up ++ " file")
  else Normal (if String.eqb f "blob" then "file" else f).

Definition INTERNAL_doFormatting (config : option ExpandedRouteConfig)
  : completion string :=
  match config with
  | None => Normal ""
  | Some config =>
      let allowedTypes := Object_keys config in
      formattedTypes <- JS.map formatType allowedTypes ;;
      if (1 <? List.length formattedTypes)%nat then
        let '(formattedTypes, lastType) := JS.pop formattedTypes in
        Normal (JS.join formattedTypes "s, " ++ " and "
                ++ JS.template lastType ++ "s")
      else
        let key := JS.index allowedTypes 0 in
        let formattedKey := JS.index formattedTypes 0 in
        match Object_get config key with
        | None => Throw TypeError
        | Some (mkLimits maxFileSize maxFileCount) =>
            if JS.truthy (and_gt_one maxFileCount) then
              Normal (JS.template formattedKey ++ "s up to " ++ maxFileSize
                      ++ ", max " ++ JS.template_number maxFileCount)
            else
              Normal (JS.template formattedKey ++ " (" ++ maxFileSize ++ ")")
        end
  end.

(** ** allowedContentTextLabelGenerator (lines 68-72) *)

Definition allowedContentTextLabelGenerator
  (config : option ExpandedRouteConfig) : completion string :=
  s <- INTERNAL_doFormatting config ;; Normal (capitalizeStart s).

(** ** The upload widgets (lines 149-393)

    A widget keeps its local state in [useState] cells and hands three
    callbacks to the upload hook.  The caller's own callbacks act on the
    embedding application, here a state of type [World]; they have no access
    to the widget's cells. *)

Section Widgets.

Variables Res Err File World : Type.

Record UploadthingComponentProps : Type := mkProps {
  onUploadProgress : option (Z -> World -> World);
  onClientUploadComplete : option (option Res -> World -> World);
  onUploadError : option (Err -> World -> World)
}.

(** [f?.(a)] *)
Definition optional_call {A : Type} (f : option (A -> World -> World))
  (a : A) (w : World) : World :=
  match f with
  | Some g => g a w
  | None => w
  end.

(** The options object a widget with local state [St] passes to
    [useUploadThing]. *)
Record UseUploadthingProps (St : Type) : Type := mkHook {
  hook_onClientUploadComplete : option Res -> St * World -> St * World;
  hook_onUploadProgress : Z -> St * World -> St * World;
  hook_onUploadError : option (Err -> St * World -> St * World)
}.

Arguments mkHook {St}.
Arguments hook_onClientUploadComplete {St}.
Arguments hook_onUploadProgress {St}.
Arguments hook_onUploadError {St}.

(** A callback of the caller, run while the widget is in state [St]. *)
Definition caller_callback {A St : Type} (f : A -> World -> World)
  : A -> St * World -> St * World :=
  fun a s => (fst s, f a (snd s)).

(** The upload client reporting an error: it calls the [onUploadError]
    it was given, when there is one. *)
Definition fire_onUploadError {St : Type} (h : UseUploadthingProps St)
  (e : Err) (s : St * World) : St * World :=
  match hook_onUploadError h with
  | Some f => f e s
  | None => s
  end.

(** *** UploadButton *)

(** [fileInputRef.current?.value] ([None] while the ref is null) and
    the [uploadProgress] cell. *)
Record ButtonState : Type := mkButton {
  btn_inputValue : option string;
  btn_uploadProgress : Z
}.

Definition ButtonState_init : ButtonState := mkButton None 0.

Definition UploadButton_hook (props : UploadthingComponentProps)
  : UseUploadthingProps ButtonState :=
  mkHook
    (fun res s =>
       let st := fst s in
       let value :=
         match btn_inputValue st with
         | Some _ => Some ""
         | None => None
         end in
       let w := optional_call (onClientUploadComplete props) res (snd s) in
       (mkButton value 0, w))
    (fun p s =>
       (mkButton (btn_inputValue (fst s)) p,
        optional_call (onUploadProgress props) p (snd s)))
    (option_map caller_callback (onUploadError props)).

(** *** UploadDropzone *)

Record DropzoneState : Type := mkDropzone {
  dz_files : list File;
  dz_uploadProgress : Z
}.

Definition DropzoneState_init : DropzoneState := mkDropzone [] 0.

Definition onDrop (acceptedFiles : list File) (st : DropzoneState)
  : DropzoneState :=
  mkDropzone acceptedFiles (dz_uploadProgress st).

Definition UploadDropzone_hook (props : UploadthingComponentProps)
  : UseUploadthingProps DropzoneState :=
  mkHook
    (fun res s =>
       (mkDropzone [] 0,
        optional_call (onClientUploadComplete props) res (snd s)))
    (fun p s =>
       (mkDropzone (dz_files (fst s)) p,
        optional_call (onUploadProgress props) p (snd s)))
    (option_map caller_callback (onUploadError props)).

(** What the upload trigger of the dropzone shows (lines 362-389):
    nothing is rendered for an empty selection. *)
Inductive TriggerContent : Type :=
| Spinner
| Text (s : string).

Definition UploadDropzone_trigger (files : list File) (isUploading : bool)
  : option TriggerContent :=
  let n := List.length files in
  if (0 <? n)%nat then
    Some (if isUploading then Spinner
          else Text ("Upload " ++ JS.Number_toString (Z.of_nat n) ++ " file"
                     ++ (if (n =? 1)%nat then "" else "s")))
  else None.

End Widgets.

Arguments mkProps {Res Err World}.
Arguments onUploadProgress {Res Err World}.
Arguments onClientUploadComplete {Res Err World}.
Arguments onUploadError {Res Err World}.
Arguments optional_call {World A}.
Arguments fire_onUploadError {Res Err World St}.
Arguments hook_onClientUploadComplete {Res Err World St}.
Arguments hook_onUploadProgress {Res Err World St}.
Arguments hook_onUploadError {Res Err World St}.
Arguments UploadButton_hook {Res Err World}.
Arguments UploadDropzone_hook {Res Err File World}.
Arguments mkDropzone {File}.
Arguments dz_files {File}.
Arguments dz_uploadProgress {File}.
Arguments onDrop {File}.
Arguments Text s : clear implicits.
Arguments UploadDropzone_trigger {File}.

(** ** The formatter in the words of its description *)

(** The text between the first slash of a key and the next one. *)
Fixpoint after_slash (s : string) : string :=
  match s with
  | EmptyString => ""
  | String c r => if Ascii.eqb c slash then r else after_slash r
  end.

Fixpoint upto_slash (s : string) : string :=
  match s with
  | EmptyString => ""
  | String c r => if Ascii.eqb c slash then "" else String c (upto_slash r)
  end.

Definition spec_subtype (k : string) : string := upto_slash (after_slash k).

(** The singular display token of a key. *)
Definition spec_token (k : string) : string :=
  if JS.includes k slash then JS.toUpperCase (spec_subtype k) ++ " file"
  else if String.eqb k "blob" then "file"
  else k.

(** All tokens but the last joined with ["s, "], then [" and "], the last
    token and ["s"]. *)
Definition spec_multi_label (tokens : list string) : string :=
  String.concat "s, " (removelast tokens)
  ++ " and " ++ last tokens "" ++ "s".

(** Upper-casing the character at position 0 and no other. *)
Definition spec_capitalize_first (s : string) : string :=
  match s with
  | EmptyString => ""
  | String c r => String (JS.toUpperCase_char c) r
  end.

(** The pattern ["<t1>s, <t2>s, ... and <tn>s"]: every token pluralised. *)
Fixpoint spec_all_plural (tokens : list string) : string :=
  match tokens with
  | [] => ""
  | [t] => t ++ "s"
  | [t; u] => t ++ "s and " ++ u ++ "s"
  | t :: r => t ++ "s, " ++ spec_all_plural r
  end.

(** The error transition as described: the caller's error callback runs
    and the progress cell is back at its initial value [0]. *)
Definition spec_button_error_resets {Res Err World : Type}
  (props : @UploadthingComponentProps Res Err World) (e : Err)
  (s : ButtonState * World) : Prop :=
  let r := fire_onUploadError (UploadButton_hook props) e s in
  (exists f, onUploadError props = Some f /\ snd r = f e (snd s))
  /\ btn_uploadProgress (fst r) = 0.

Definition spec_dropzone_error_resets {Res Err File World : Type}
  (props : @UploadthingComponentProps Res Err World) (e : Err)
  (s : DropzoneState File * World) : Prop :=
  let r := fire_onUploadError (UploadDropzone_hook props) e s in
  (exists f, onUploadError props = Some f /\ snd r = f e (snd s))
  /\ dz_uploadProgress (fst r) = 0.

(** ** progressHeights (lines 90-102) *)

Definition progressHeights : list (Z * string) :=
  [(0, "after:ut-w-0");
   (10, "after:ut-w-[10%]");
   (20, "after:ut-w-[20%]");
   (30, "after:ut-w-[30%]");
   (40, "after:ut-w-[40%]");
   (50, "after:ut-w-[50%]");
   (60, "after:ut-w-[60%]");
   (70, "after:ut-w-[70%]");
   (80, "after:ut-w-[80%]");
   (90, "after:ut-w-[90%]");
   (100, "after:ut-w-[100%]")].

(** [progressHeights[uploadProgress]]: [None] is [undefined]. *)
Fixpoint number_property (table : list (Z * string)) (p : Z) : option string :=
  match table with
  | [] => None
  | (k, v) :: r => if k =? p then Some v else number_property r p
  end.

(** The template literal handed to [classNames] while uploading (lines 228
    and 368). *)
Definition uploading_class (uploadProgress : Z) : string :=
  "ut-bg-blue-400 after:ut-absolute after:ut-left-0 after:ut-h-full after:ut-bg-blue-600 "
  ++ JS.template (number_property progressHeights uploadProgress).

Definition progress_keys : list Z := List.map fst progressHeights.

(** The progress values the table has an entry for. *)
Definition progress_step (p : Z) : Prop :=
  0 <= p <= 100 /\ p mod 10 = 0.

(** ** The presentation of the UploadButton (lines 104-115, 157-172,
    196-205, 251-272) *)

(** A property that is not there is [None]; a property set to [undefined]
    reads the same in every test below. *)
Record UI_btn : Type := mkBtn {
  btn_text : option string;
  btn_color : option string;
  btn_backgroundColor : option string
}.

Record UI_UploadButton : Type := mkUI {
  ui_btn : option UI_btn;
  ui_description : option string;
  ui_color : option string;
  ui_backgroundColor : option string;
  ui_border : option bool;
  ui_short : option bool
}.

Definition defaultUI_UploadButton : UI_UploadButton :=
  mkUI (Some (mkBtn (Some "") (Some "") (Some "")))
       (Some "") (Some "") (Some "") (Some false) (Some true).

(** One property of [{ ...a, ...b }]. *)
Definition spread_property {A : Type} (a b : option A) : option A :=
  match b with
  | Some v => Some v
  | None => a
  end.

(** [{ ...a, ...b }]: a shallow merge, [btn] is replaced as a whole. *)
Definition spread (a b : UI_UploadButton) : UI_UploadButton :=
  mkUI (spread_property (ui_btn a) (ui_btn b))
       (spread_property (ui_description a) (ui_description b))
       (spread_property (ui_color a) (ui_color b))
       (spread_property (ui_backgroundColor a) (ui_backgroundColor b))
       (spread_property (ui_border a) (ui_border b))
       (spread_property (ui_short a) (ui_short b)).


(** [s || alt] on a string-or-undefined [s]; [alt] is only evaluated, and
    can only throw, when [s] is falsy. *)
Definition or_else (s : option string) (alt : completion string)
  : completion string :=
  match s with
  | Some (String c r) => Normal (String c r)
  | _ => alt
  end.



(** The paragraph under the button (lines 264-272); [fileTypes] is an
    array and so always truthy. *)
Definition UploadButton_description (props : UI_UploadButton)
  (config : option ExpandedRouteConfig) : completion string :=
  let optionalProps := spread defaultUI_UploadButton props in
  or_else (ui_description optionalProps)
    (allowedContentTextLabelGenerator config).

(** ** Events of the upload client *)

Inductive ClientEvent (Res Err : Type) : Type :=
| EvProgress (p : Z)
| EvComplete (res : option Res)
| EvError (e : Err).

Arguments EvProgress {Res Err} p.
Arguments EvComplete {Res Err} res.
Arguments EvError {Res Err} e.

(** The client calling the callback of the options object that belongs to
    an event. *)
Definition dispatch {Res Err World St : Type}
  (h : UseUploadthingProps Res Err World St) (ev : ClientEvent Res Err)
  (s : St * World) : St * World :=
  match ev with
  | EvProgress p => hook_onUploadProgress h p s
  | EvComplete res => hook_onClientUploadComplete h res s
  | EvError e => fire_onUploadError h e s
  end.

Definition run {Res Err World St : Type}
  (h : UseUploadthingProps Res Err World St)
  (evs : list (ClientEvent Res Err)) (s : St * World) : St * World :=
  fold_left (fun s ev => dispatch h ev s) evs s.

(** The same event handed to the caller's own callback, when supplied. *)
Definition caller_dispatch {Res Err World : Type}
  (props : @UploadthingComponentProps Res Err World)
  (w : World) (ev : ClientEvent Res Err) : World :=
  match ev with
  | EvProgress p => optional_call (onUploadProgress props) p w
  | EvComplete res => optional_call (onClientUploadComplete props) res w
  | EvError e => optional_call (onUploadError props) e w
  end.

Definition is_complete {Res Err : Type} (ev : ClientEvent Res Err) : bool :=
  match ev with
  | EvComplete _ => true
  | _ => false
  end.

(** The progress events of a run report table steps only. *)
Definition reports_steps {Res Err : Type} (evs : list (ClientEvent Res Err))
  : Prop :=
  forall p, In (EvProgress p) evs -> progress_step p.

(** A caller that records every callback it receives. *)
Definition recording_props
  : @UploadthingComponentProps string string (list string) :=
  mkProps (Some (fun p log => List.app log ["progress " ++ JS.Number_toString p]))
          (Some (fun res log => List.app log ["complete " ++ JS.template res]))
          (Some (fun e log => List.app log ["error " ++ e])).

(** ** Sample inputs *)

Definition png_only : ExpandedRouteConfig :=
  [("image/png", mkLimits "4MB" None)].

Definition png_five : ExpandedRouteConfig :=
  [("image/png", mkLimits "4MB" (Some 5))].

Definition png_mp4 : ExpandedRouteConfig :=
  [("image/png", mkLimits "4MB" None); ("video/mp4", mkLimits "16MB" None)].

Definition blob_only : ExpandedRouteConfig :=
  [("blob", mkLimits "10MB" None)].

Definition video_image_blob : ExpandedRouteConfig :=
  [("video", mkLimits "16MB" None); ("image", mkLimits "4MB" None);
   ("blob", mkLimits "8MB" None)].

(** A caller that logs every error it is handed. *)
Definition logging_props : @UploadthingComponentProps unit string (list string) :=
  mkProps None None (Some (fun e log => e :: log)).

(** * Properties *)

(** ** String and array primitives *)

Lemma capitalizeStart_cons (c : ascii) (s : string) :
  capitalizeStart (String c s) = String (JS.toUpperCase_char c) s.
Proof. reflexivity. Qed.

Lemma capitalizeStart_spec (s : string) :
  capitalizeStart s = spec_capitalize_first s.
Proof. destruct s; reflexivity. Qed.

Lemma capitalizeStart_app (a b : string) :
  a <> "" -> capitalizeStart (a ++ b) = capitalizeStart a ++ b.
Proof.
  destruct a as [|c a]; [congruence|].
  intros _. simpl. now rewrite !capitalizeStart_cons.
Qed.

Lemma append_nonempty_r (a b : string) : b <> "" -> a ++ b <> "".
Proof.
  destruct a; simpl; [trivial | discriminate].
Qed.

Lemma join_concat (l : list string) (sep : string) :
  JS.join l sep = String.concat sep l.
Proof.
  induction l as [|x [|y r] IH]; simpl in *; try reflexivity.
  now rewrite IH.
Qed.

Lemma pop_removelast_last {A : Type} (l : list A) (d : A) :
  l <> [] -> JS.pop l = (removelast l, Some (last l d)).
Proof.
  induction l as [|x [|y r] IH]; intros H; [congruence | reflexivity |].
  change (JS.pop (x :: y :: r))
    with (let '(r', o) := JS.pop (y :: r) in (x :: r', o)).
  rewrite IH by discriminate. reflexivity.
Qed.

Lemma split_nonempty (s : string) (sep : ascii) : JS.split s sep <> [].
Proof.
  induction s as [|c r IH]; simpl; [discriminate|].
  destruct (Ascii.eqb c sep); [discriminate|].
  destruct (JS.split r sep); [congruence | discriminate].
Qed.

Lemma split_head_no_sep (s : string) :
  JS.includes s slash = false -> JS.split s slash = [s].
Proof.
  induction s as [|c r IH]; simpl; [reflexivity|].
  destruct (Ascii.eqb c slash); [discriminate|].
  intros H. now rewrite (IH H).
Qed.

Lemma split_second_upto (s : string) :
  exists t, JS.split s slash = upto_slash s :: t.
Proof.
  induction s as [|c r [t IH]]; simpl.
  - now exists [].
  - destruct (Ascii.eqb c slash).
    + now exists (JS.split r slash).
    + rewrite IH. now exists t.
Qed.

Lemma split_index_1 (s : string) :
  JS.includes s slash = true ->
  JS.index (JS.split s slash) 1 = Some (spec_subtype s).
Proof.
  unfold spec_subtype.
  induction s as [|c r IH]; simpl; [discriminate|].
  destruct (Ascii.eqb c slash).
  - intros _. destruct (split_second_upto r) as [t ->]. reflexivity.
  - intros H. specialize (IH H).
    destruct (JS.split r slash) as [|h t]; [discriminate IH | exact IH].
Qed.

(** ** The formatter *)

Lemma formatType_spec (k : string) : formatType k = Normal (spec_token k).
Proof.
  unfold formatType, spec_token.
  destruct (JS.includes k slash) eqn:E; [|reflexivity].
  now rewrite (split_index_1 k E).
Qed.

Lemma map_formatType (ks : list string) :
  JS.map formatType ks = Normal (List.map spec_token ks).
Proof.
  induction ks as [|k r IH]; [reflexivity|].
  cbn [JS.map List.map]. rewrite formatType_spec, IH. reflexivity.
Qed.

Lemma spec_token_nonempty (k : string) : k <> "" -> spec_token k <> "".
Proof.
  intros Hk. unfold spec_token.
  destruct (JS.includes k slash).
  - apply append_nonempty_r. discriminate.
  - destruct (String.eqb k "blob"); [discriminate | exact Hk].
Qed.

Lemma doFormatting_multi (config : ExpandedRouteConfig) :
  (1 < List.length config)%nat ->
  INTERNAL_doFormatting (Some config)
  = Normal (spec_multi_label (List.map spec_token (Object_keys config))).
Proof.
  intros Hlen. unfold INTERNAL_doFormatting.
  rewrite map_formatType. cbn [bind].
  assert (Hn : List.length (List.map spec_token (Object_keys config))
               = List.length config).
  { unfold Object_keys. now rewrite !length_map. }
  rewrite Hn. apply Nat.ltb_lt in Hlen. rewrite Hlen.
  rewrite (pop_removelast_last _ "").
  - rewrite join_concat. reflexivity.
  - intros E. rewrite E in Hn. apply Nat.ltb_lt in Hlen.
    simpl in Hn. lia.
Qed.

Lemma doFormatting_single (k : string) (lim : RouteLimits) :
  INTERNAL_doFormatting (Some [(k, lim)])
  = Normal (if JS.truthy (and_gt_one (maxFileCount lim))
            then spec_token k ++ "s up to " ++ maxFileSize lim
                 ++ ", max " ++ JS.template_number (maxFileCount lim)
            else spec_token k ++ " (" ++ maxFileSize lim ++ ")").
Proof.
  unfold INTERNAL_doFormatting.
  rewrite map_formatType. cbn [bind Object_keys List.map fst List.length].
  cbn [Nat.ltb Nat.leb JS.index nth_error Object_get JS.template own_property].
  rewrite String.eqb_refl. destruct lim as [size count].
  cbn [maxFileSize maxFileCount].
  now destruct (JS.truthy (and_gt_one count)).
Qed.

Lemma and_gt_one_true (v : option Z) :
  JS.truthy (and_gt_one v) = true
  <-> exists n, v = Some n /\ n <> 0 /\ 1 < n.
Proof.
  destruct v as [n|]; simpl.
  - destruct (Z.eqb_spec n 0) as [E|E]; simpl.
    + rewrite E. simpl. split; [discriminate|].
      intros (m & Hm & H0 & _). injection Hm as <-. congruence.
    + rewrite Z.ltb_lt. split.
      * intros H. now exists n.
      * intros (m & Hm & _ & H). injection Hm as <-. exact H.
  - split; [discriminate|]. intros (m & Hm & _). discriminate.
Qed.

(** ** Labels for several file types *)

(** C1: on the two-entry config [{ "image/png", "video/mp4" }] the label
    is ["PNG file and MP4 files"]: the token standing before [" and "] gets
    no trailing ["s"], so the output is not the all-plural pattern
    ["<t1>s, <t2>s, ... and <tn>s"], which reads ["PNG files and MP4 files"]
    here.  The comment of line 48 announces ["videos, images and files"],
    and the code yields ["Videos, image and files"] for those three types. *)
Theorem multi_type_label_drops_a_plural :
  allowedContentTextLabelGenerator (Some png_mp4)
  = Normal "PNG file and MP4 files"
  /\ capitalizeStart
       (spec_all_plural (List.map spec_token (Object_keys png_mp4)))
     = "PNG files and MP4 files"
  /\ allowedContentTextLabelGenerator (Some png_mp4)
     <> Normal (capitalizeStart
                  (spec_all_plural
                     (List.map spec_token (Object_keys png_mp4))))
  /\ allowedContentTextLabelGenerator (Some video_image_blob)
     = Normal "Videos, image and files".
Proof.
  repeat split; try reflexivity.
  vm_compute. intros H. discriminate H.
Qed.

(** C2: for every config with more than one key, the formatter joins all
    display tokens but the last with ["s, "], appends [" and "], the last
    token and ["s"], and the label generator then upper-cases the first
    character of that string and no other. *)
Theorem multi_type_label (config : ExpandedRouteConfig) :
  (1 < List.length (Object_keys config))%nat ->
  let tokens := List.map spec_token (Object_keys config) in
  JS.map formatType (Object_keys config) = Normal tokens
  /\ INTERNAL_doFormatting (Some config) = Normal (spec_multi_label tokens)
  /\ allowedContentTextLabelGenerator (Some config)
     = Normal (spec_capitalize_first (spec_multi_label tokens)).
Proof.
  intros Hlen tokens. unfold Object_keys in Hlen. rewrite length_map in Hlen.
  split; [apply map_formatType|].
  pose proof (doFormatting_multi config Hlen) as H.
  split; [exact H|].
  unfold allowedContentTextLabelGenerator. rewrite H. cbn [bind].
  now rewrite capitalizeStart_spec.
Qed.

Lemma multi_type_label_witness :
  (1 < List.length (Object_keys video_image_blob))%nat
  /\ allowedContentTextLabelGenerator (Some video_image_blob)
     = Normal "Videos, image and files".
Proof.
  split; [simpl; lia|].
  apply (multi_type_label video_image_blob). simpl. lia.
Defined.

(** ** Labels for a single file type *)

(** C3: for a config with exactly one key [k] whose [maxFileCount] is absent
    or at most 1, the label is the capitalised token of [k], then [" ("],
    the entry's [maxFileSize] and [")"]; [{ "image/png": {maxFileSize:"4MB"} }]
    gives ["PNG file (4MB)"]. *)
Theorem single_type_label (k : string) (lim : RouteLimits) :
  (maxFileCount lim = None
   \/ exists n, maxFileCount lim = Some n /\ n <= 1) ->
  allowedContentTextLabelGenerator (Some [(k, lim)])
  = Normal (capitalizeStart (spec_token k) ++ " (" ++ maxFileSize lim ++ ")")
  /\ allowedContentTextLabelGenerator (Some png_only)
     = Normal "PNG file (4MB)".
Proof.
  intros Hcount. split; [|reflexivity].
  unfold allowedContentTextLabelGenerator. rewrite doFormatting_single.
  assert (Hf : JS.truthy (and_gt_one (maxFileCount lim)) = false).
  { destruct (JS.truthy (and_gt_one (maxFileCount lim))) eqn:E; [|reflexivity].
    apply and_gt_one_true in E. destruct E as (n & Hn & _ & Hgt).
    destruct Hcount as [Hc | (m & Hm & Hle)]; [congruence|].
    rewrite Hn in Hm. injection Hm as <-. lia. }
  rewrite Hf. cbn [bind]. f_equal.
  destruct (spec_token k) as [|c t] eqn:Et.
  - reflexivity.
  - apply capitalizeStart_app. discriminate.
Qed.

Lemma single_type_label_witness :
  (maxFileCount (mkLimits "2MB" (Some 1)) = None
   \/ exists n, maxFileCount (mkLimits "2MB" (Some 1)) = Some n /\ n <= 1)
  /\ allowedContentTextLabelGenerator (Some [("image", mkLimits "2MB" (Some 1))])
     = Normal "Image (2MB)".
Proof.
  assert (H : maxFileCount (mkLimits "2MB" (Some 1)) = None
              \/ exists n, maxFileCount (mkLimits "2MB" (Some 1)) = Some n
                           /\ n <= 1).
  { right. exists 1. split; [reflexivity | lia]. }
  split; [exact H|].
  exact (proj1 (single_type_label "image" (mkLimits "2MB" (Some 1)) H)).
Defined.

(** The several-files label of a single key, for any key whatever: the
    capitalisation applies to the label as a whole. *)
Lemma single_type_label_many_whole (k : string) (lim : RouteLimits) (n : Z) :
  maxFileCount lim = Some n ->
  1 < n ->
  allowedContentTextLabelGenerator (Some [(k, lim)])
  = Normal (capitalizeStart (spec_token k ++ "s up to " ++ maxFileSize lim
                             ++ ", max " ++ JS.Number_toString n)).
Proof.
  intros Hcount Hgt.
  unfold allowedContentTextLabelGenerator. rewrite doFormatting_single.
  assert (Ht : JS.truthy (and_gt_one (maxFileCount lim)) = true).
  { apply and_gt_one_true. exists n.
    split; [exact Hcount|]. split; lia. }
  rewrite Ht, Hcount. reflexivity.
Qed.

(** C4: for a config with exactly one key [k] (a file-type key, so not the
    empty string) whose [maxFileCount] is present and greater than 1, the
    label is the capitalised token of [k], then ["s up to "], the entry's
    [maxFileSize], [", max "] and the [maxFileCount];
    [{ "image/png": {maxFileSize:"4MB", maxFileCount:5} }] gives
    ["PNG files up to 4MB, max 5"]. *)
Theorem single_type_label_many (k : string) (lim : RouteLimits) (n : Z) :
  k <> "" ->
  maxFileCount lim = Some n ->
  1 < n ->
  allowedContentTextLabelGenerator (Some [(k, lim)])
  = Normal (capitalizeStart (spec_token k) ++ "s up to " ++ maxFileSize lim
            ++ ", max " ++ JS.Number_toString n)
  /\ allowedContentTextLabelGenerator (Some png_five)
     = Normal "PNG files up to 4MB, max 5".
Proof.
  intros Hk Hcount Hgt. split; [|reflexivity].
  rewrite (single_type_label_many_whole k lim n Hcount Hgt). f_equal.
  apply capitalizeStart_app. now apply spec_token_nonempty.
Qed.

Lemma single_type_label_many_witness :
  "video" <> ""
  /\ maxFileCount (mkLimits "64MB" (Some 12)) = Some 12
  /\ 1 < 12
  /\ allowedContentTextLabelGenerator
       (Some [("video", mkLimits "64MB" (Some 12))])
     = Normal "Videos up to 64MB, max 12".
Proof.
  assert (Hk : "video" <> "") by discriminate.
  assert (Hn : 1 < 12) by lia.
  split; [exact Hk|]. split; [reflexivity|]. split; [exact Hn|].
  exact (proj1 (single_type_label_many "video" (mkLimits "64MB" (Some 12)) 12
                  Hk eq_refl Hn)).
Defined.

(** ** The display token *)

Lemma spec_subtype_mime (cat sub : string) :
  JS.includes cat slash = false ->
  JS.includes sub slash = false ->
  JS.includes (cat ++ "/" ++ sub) slash = true
  /\ spec_subtype (cat ++ "/" ++ sub) = sub.
Proof.
  intros Hcat Hsub. unfold spec_subtype.
  induction cat as [|c r IH]; simpl in *.
  - split; [reflexivity|].
    clear Hcat. induction sub as [|d u IHu]; simpl in *; [reflexivity|].
    destruct (Ascii.eqb d slash); [discriminate|].
    now rewrite (IHu Hsub).
  - destruct (Ascii.eqb c slash); [discriminate|]. exact (IH Hcat).
Qed.

(** C5: the singular display token of a key.  A key containing ["/"] gives
    its subtype in upper case followed by [" file"] (for a key
    [category/subtype] the subtype is the text after the slash); the key
    ["blob"] gives ["file"]; any other key is its own token.  The config
    [{ "blob": {maxFileSize:"10MB"} }] is labelled ["File (10MB)"]. *)
Theorem display_token :
  (forall k, JS.includes k slash = true ->
             formatType k
             = Normal (JS.toUpperCase (spec_subtype k) ++ " file"))
  /\ (forall cat sub,
        JS.includes cat slash = false ->
        JS.includes sub slash = false ->
        formatType (cat ++ "/" ++ sub)
        = Normal (JS.toUpperCase sub ++ " file"))
  /\ formatType "blob" = Normal "file"
  /\ (forall k, JS.includes k slash = false -> k <> "blob" ->
                formatType k = Normal k)
  /\ allowedContentTextLabelGenerator (Some blob_only)
     = Normal "File (10MB)".
Proof.
  split; [|split; [|split; [|split]]]; try reflexivity.
  - intros k Hk. rewrite formatType_spec. unfold spec_token. now rewrite Hk.
  - intros cat sub Hcat Hsub.
    destruct (spec_subtype_mime cat sub Hcat Hsub) as [Hin Hsubtype].
    rewrite formatType_spec. unfold spec_token. now rewrite Hin, Hsubtype.
  - intros k Hk Hblob. rewrite formatType_spec. unfold spec_token.
    rewrite Hk. destruct (String.eqb_spec k "blob"); [contradiction|].
    reflexivity.
Qed.

Lemma display_token_witness :
  formatType "image/png" = Normal "PNG file"
  /\ formatType "audio" = Normal "audio".
Proof.
  destruct display_token as (_ & Hmime & _ & Hother & _).
  split.
  - apply (Hmime "image" "png"); reflexivity.
  - apply (Hother "audio"); [reflexivity | discriminate].
Defined.

(** ** Permitted file types *)

(** C6: [multiple] is true exactly when some entry's [maxFileCount] is
    present, truthy and greater than 1; it is false for an absent config
    and for a config without entries; [fileTypes] is the sequence of the
    config's keys in order, empty for an absent config. *)
Theorem permitted_file_types (config : option ExpandedRouteConfig) :
  (multiple (generatePermittedFileTypes config) = true
   <-> exists c k lim n,
         config = Some c /\ In (k, lim) c
         /\ maxFileCount lim = Some n /\ n <> 0 /\ 1 < n)
  /\ fileTypes (generatePermittedFileTypes config)
     = match config with
       | Some c => List.map fst c
       | None => []
       end
  /\ generatePermittedFileTypes None = mkPermitted [] false
  /\ generatePermittedFileTypes (Some []) = mkPermitted [] false.
Proof.
  split; [|split; [|split]]; try reflexivity.
  unfold generatePermittedFileTypes, JS.some, Object_values.
  cbn [multiple]. destruct config as [c|].
  - rewrite existsb_exists. split.
    + intros (v & Hin & Ht).
      apply in_map_iff in Hin. destruct Hin as (lim & <- & Hin).
      apply in_map_iff in Hin. destruct Hin as ((k & lim') & <- & Hin).
      apply and_gt_one_true in Ht. destruct Ht as (n & Hn & H0 & H1).
      exists c, k, lim', n. repeat split; auto.
    + intros (c' & k & lim & n & Hc & Hin & Hn & H0 & H1).
      injection Hc as <-.
      exists (maxFileCount lim). split.
      * apply in_map. change lim with (snd (k, lim)). now apply in_map.
      * apply and_gt_one_true. now exists n.
  - simpl. split; [discriminate|].
    intros (c & k & lim & n & Hc & _). discriminate.
Qed.

(** ** Degenerate configs *)

(** C7: for a present config with zero keys the formatter does not take the
    multi-token branch (the test [length > 1] fails); it goes on to the
    single-key path, where the first key is undefined and the lookup of its
    limits yields no value, so that destructuring them throws: neither the
    formatter nor the label generator returns a string. *)
Theorem empty_config_throws :
  JS.map formatType (Object_keys []) = Normal []
  /\ (1 <? List.length (@nil string))%nat = false
  /\ JS.index (Object_keys []) 0 = None
  /\ Object_get [] (JS.index (Object_keys []) 0) = None
  /\ INTERNAL_doFormatting (Some []) = Throw TypeError
  /\ allowedContentTextLabelGenerator (Some []) = Throw TypeError.
Proof. repeat split. Qed.

(** C10: for an absent config the label generator returns the empty string;
    the capitalisation step is defined on the empty string and leaves it
    empty. *)
Theorem absent_config_label :
  INTERNAL_doFormatting None = Normal ""
  /\ capitalizeStart "" = ""
  /\ allowedContentTextLabelGenerator None = Normal "".
Proof. repeat split. Qed.

(** ** The upload widgets *)

Lemma completion_resets_progress {Res Err File World : Type}
  (props : @UploadthingComponentProps Res Err World) (res : option Res)
  (bs : ButtonState) (ds : DropzoneState File) (w : World) :
  btn_uploadProgress
    (fst (hook_onClientUploadComplete (UploadButton_hook props) res (bs, w)))
  = 0
  /\ fst (hook_onClientUploadComplete (UploadDropzone_hook props) res (ds, w))
     = DropzoneState_init File.
Proof. split; reflexivity. Qed.

(** C8, as the code has it: for both the Button and the Dropzone widget,
    when the upload client's error callback fires, the caller-supplied error
    callback is invoked with the error, and the widget's local state, its
    progress included, is left as it was (progress is put back to 0 by the
    completion callback only). *)
Theorem error_callback_forwarded {Res Err File World : Type}
  (props : @UploadthingComponentProps Res Err World)
  (f : Err -> World -> World) (e : Err)
  (bs : ButtonState) (ds : DropzoneState File) (w : World) :
  onUploadError props = Some f ->
  fire_onUploadError (UploadButton_hook props) e (bs, w) = (bs, f e w)
  /\ fire_onUploadError (UploadDropzone_hook props) e (ds, w) = (ds, f e w).
Proof.
  intros Hf. unfold fire_onUploadError, UploadButton_hook, UploadDropzone_hook.
  cbn [hook_onUploadError]. rewrite Hf. split; reflexivity.
Qed.

Lemma error_callback_forwarded_witness :
  onUploadError logging_props = Some (fun e log => e :: log)
  /\ fire_onUploadError (UploadButton_hook logging_props) "network error"
       (mkButton (Some "a.png") 50, [])
     = (mkButton (Some "a.png") 50, ["network error"])
  /\ fire_onUploadError (UploadDropzone_hook logging_props) "network error"
       (mkDropzone ["a.png"] 50, [])
     = (mkDropzone ["a.png"] 50, ["network error"]).
Proof.
  split; [reflexivity|].
  apply (error_callback_forwarded logging_props (fun e log => e :: log)).
  reflexivity.
Defined.

(** C8, as worded, fails: with the progress cell at 50, an error leaves it
    at 50 in both widgets, not at 0. *)
Lemma error_keeps_progress :
  ~ spec_button_error_resets logging_props "network error"
      (mkButton (Some "a.png") 50, [])
  /\ ~ spec_dropzone_error_resets logging_props "network error"
        (mkDropzone ["a.png"] 50, []).
Proof.
  split; intros [_ H]; vm_compute in H; discriminate H.
Qed.

(** C9: for a non-empty selection of [N] files on the Dropzone, while no
    upload is running, the upload trigger reads ["Upload N file"] when [N]
    is 1 and ["Upload N files"] otherwise. *)
Theorem dropzone_trigger_text {File : Type} (files : list File)
  (isUploading : bool) :
  files <> [] ->
  isUploading = false ->
  let N := List.length files in
  (N = 1%nat ->
   UploadDropzone_trigger files isUploading = Some (Text "Upload 1 file"))
  /\ (N <> 1%nat ->
      UploadDropzone_trigger files isUploading
      = Some (Text ("Upload " ++ JS.Number_toString (Z.of_nat N)
                    ++ " files"))).
Proof.
  intros Hne -> N. unfold UploadDropzone_trigger. fold N.
  assert (Hpos : (0 <? N)%nat = true).
  { apply Nat.ltb_lt. subst N. destruct files; [congruence | simpl; lia]. }
  rewrite Hpos. split; intros HN.
  - rewrite HN. reflexivity.
  - apply Nat.eqb_neq in HN. rewrite HN. reflexivity.
Qed.

Lemma dropzone_trigger_text_witness :
  ["a.png"; "b.png"] <> []
  /\ false = false
  /\ UploadDropzone_trigger ["a.png"] false = Some (Text "Upload 1 file")
  /\ UploadDropzone_trigger ["a.png"; "b.png"] false
     = Some (Text "Upload 2 files").
Proof.
  assert (H1 : ["a.png"] <> []) by discriminate.
  assert (H2 : ["a.png"; "b.png"] <> []) by discriminate.
  split; [exact H2|]. split; [reflexivity|]. split.
  - apply (dropzone_trigger_text ["a.png"] false H1 eq_refl). reflexivity.
  - apply (dropzone_trigger_text ["a.png"; "b.png"] false H2 eq_refl).
    simpl. lia.
Defined.

(** * Further properties of the code *)

(** ** The label as a whole *)




Lemma capitalizeStart_empty_inv (s : string) :
  capitalizeStart s = "" -> s = "".
Proof.
  destruct s as [|c r]; [reflexivity|].
  rewrite capitalizeStart_cons. discriminate.
Qed.



(** X2: with more than one key the label depends on the keys alone: two
    configs with the same keys in the same order get the same label,
    whatever their size and count limits. *)
Theorem multi_type_label_ignores_limits (c1 c2 : ExpandedRouteConfig) :
  Object_keys c1 = Object_keys c2 ->
  (1 < List.length (Object_keys c1))%nat ->
  allowedContentTextLabelGenerator (Some c1)
  = allowedContentTextLabelGenerator (Some c2).
Proof.
  intros Hkeys Hlen.
  assert (H1 : (1 < List.length c1)%nat).
  { unfold Object_keys in Hlen. now rewrite length_map in Hlen. }
  assert (H2 : (1 < List.length c2)%nat).
  { rewrite Hkeys in Hlen. unfold Object_keys in Hlen.
    now rewrite length_map in Hlen. }
  unfold allowedContentTextLabelGenerator.
  rewrite (doFormatting_multi c1 H1), (doFormatting_multi c2 H2).
  now rewrite Hkeys.
Qed.

Lemma multi_type_label_ignores_limits_witness :
  Object_keys png_mp4
  = Object_keys [("image/png", mkLimits "1GB" (Some 9));
                 ("video/mp4", mkLimits "2KB" (Some 0))]
  /\ (1 < List.length (Object_keys png_mp4))%nat
  /\ allowedContentTextLabelGenerator (Some png_mp4)
     = allowedContentTextLabelGenerator
         (Some [("image/png", mkLimits "1GB" (Some 9));
                ("video/mp4", mkLimits "2KB" (Some 0))]).
Proof.
  assert (Hlen : (1 < List.length (Object_keys png_mp4))%nat)
    by (simpl; lia).
  split; [reflexivity|]. split; [exact Hlen|].
  exact (multi_type_label_ignores_limits png_mp4
           [("image/png", mkLimits "1GB" (Some 9));
            ("video/mp4", mkLimits "2KB" (Some 0))] eq_refl Hlen).
Defined.

(** X3: the three outcomes of the label generator.  It throws exactly for
    a present config without keys, returns the empty string exactly for an
    absent config, and returns a non-empty string for every config with at
    least one key. *)
Theorem label_outcome (config : option ExpandedRouteConfig) :
  (allowedContentTextLabelGenerator config = Throw TypeError
   <-> config = Some [])
  /\ (allowedContentTextLabelGenerator config = Normal "" <-> config = None)
  /\ (forall c, config = Some c -> c <> [] ->
        exists s, allowedContentTextLabelGenerator config = Normal s
                  /\ s <> "").
Proof.
  assert (Hne : forall c, c <> [] ->
            exists s, allowedContentTextLabelGenerator (Some c) = Normal s
                      /\ s <> "").
  { intros c Hc. destruct c as [|[k lim] [|e r]]; [congruence| |].
    - unfold allowedContentTextLabelGenerator.
      rewrite doFormatting_single. cbn [bind].
      eexists. split; [reflexivity|].
      intros E. apply capitalizeStart_empty_inv in E. revert E.
      destruct (JS.truthy (and_gt_one (maxFileCount lim)));
        apply append_nonempty_r; discriminate.
    - unfold allowedContentTextLabelGenerator.
      rewrite doFormatting_multi by (simpl; lia). cbn [bind].
      eexists. split; [reflexivity|].
      intros E. apply capitalizeStart_empty_inv in E. revert E.
      unfold spec_multi_label. apply append_nonempty_r. discriminate. }
  split; [|split].
  - split.
    + destruct config as [c|]; [|discriminate].
      destruct c as [|e r]; [reflexivity|].
      destruct (Hne (e :: r) ltac:(discriminate)) as (s & Hs & _).
      intros E. pose proof (eq_trans (eq_sym Hs) E) as X. discriminate X.
    + intros ->. reflexivity.
  - split.
    + destruct config as [c|]; [|reflexivity].
      destruct c as [|e r]; [discriminate|].
      destruct (Hne (e :: r) ltac:(discriminate)) as (s & Hs & Hs').
      intros E. pose proof (eq_trans (eq_sym Hs) E) as X.
      injection X as X. contradiction.
    + intros ->. reflexivity.
  - intros c -> Hc. now apply Hne.
Qed.

Lemma label_outcome_witness :
  Some png_only = Some png_only
  /\ png_only <> []
  /\ exists s, allowedContentTextLabelGenerator (Some png_only) = Normal s
               /\ s <> "".
Proof.
  assert (Hne : png_only <> []) by discriminate.
  split; [reflexivity|]. split; [exact Hne|].
  exact (proj2 (proj2 (label_outcome (Some png_only))) png_only eq_refl Hne).
Defined.

(** ** Keys with further slashes *)

Lemma includes_app_slash (cat x : string) :
  JS.includes (cat ++ String slash x) slash = true.
Proof.
  induction cat as [|c r IH]; simpl; [reflexivity|].
  now destruct (Ascii.eqb c slash).
Qed.

Lemma after_slash_app (cat x : string) :
  JS.includes cat slash = false ->
  after_slash (cat ++ String slash x) = x.
Proof.
  induction cat as [|c r IH]; simpl; [reflexivity|].
  destruct (Ascii.eqb c slash); [discriminate | exact IH].
Qed.

Lemma upto_slash_app (sub rest : string) :
  JS.includes sub slash = false ->
  upto_slash (sub ++ String slash rest) = sub.
Proof.
  induction sub as [|c r IH]; simpl; [reflexivity|].
  destruct (Ascii.eqb c slash); [discriminate|].
  intros H. now rewrite (IH H).
Qed.

(** X4: of a key with two or more slashes only the segment between the
    first and the second slash reaches the label: [category/subtype/rest]
    gets the token of [category/subtype], whatever [rest] is. *)
Theorem token_ignores_further_segments (cat sub rest : string) :
  JS.includes cat slash = false ->
  JS.includes sub slash = false ->
  formatType (cat ++ "/" ++ sub ++ "/" ++ rest)
  = Normal (JS.toUpperCase sub ++ " file")
  /\ formatType (cat ++ "/" ++ sub ++ "/" ++ rest)
     = formatType (cat ++ "/" ++ sub).
Proof.
  intros Hcat Hsub.
  assert (H : formatType (cat ++ "/" ++ sub ++ "/" ++ rest)
              = Normal (JS.toUpperCase sub ++ " file")).
  { rewrite formatType_spec. unfold spec_token, spec_subtype.
    change (cat ++ "/" ++ sub ++ "/" ++ rest)
      with (cat ++ String slash (sub ++ String slash rest)).
    rewrite includes_app_slash, (after_slash_app _ _ Hcat).
    now rewrite (upto_slash_app _ _ Hsub). }
  split; [exact H|]. rewrite H. symmetry.
  rewrite formatType_spec. unfold spec_token.
  destruct (spec_subtype_mime cat sub Hcat Hsub) as [-> ->]. reflexivity.
Qed.

Lemma token_ignores_further_segments_witness :
  JS.includes "application" slash = false
  /\ JS.includes "vnd.ms" slash = false
  /\ formatType "application/vnd.ms/excel" = Normal "VND.MS file".
Proof.
  split; [reflexivity|]. split; [reflexivity|].
  exact (proj1 (token_ignores_further_segments "application" "vnd.ms" "excel"
                  eq_refl eq_refl)).
Defined.

(** ** The progress classes *)

Lemma progress_step_keys (p : Z) : progress_step p <-> In p progress_keys.
Proof.
  unfold progress_step. simpl. split.
  - intros [Hr Hm]. Z.div_mod_to_equations. lia.
  - intros H.
    repeat (destruct H as [<- | H]; [split; [lia | reflexivity]|]).
    contradiction.
Qed.

Lemma number_property_defined (p : Z) :
  number_property progressHeights p <> None <-> In p progress_keys.
Proof.
  split.
  - intros H. simpl.
    unfold progressHeights in H. cbn [number_property] in H.
    repeat match type of H with
           | context [?k =? p] =>
               destruct (Z.eqb_spec k p); [lia|]
           end.
    congruence.
  - intros H. simpl in H.
    repeat (destruct H as [<- | H]; [discriminate|]).
    contradiction.
Qed.

(** X5: [progressHeights] has an entry exactly for the multiples of ten
    from 0 to 100.  For such a value other than 0 the entry is
    ["after:ut-w-[<p>%]"]; for any other value the lookup is undefined and
    the class string an uploading widget hands to [classNames] ends in the
    text ["undefined"]. *)
Theorem progress_class (p : Z) :
  (number_property progressHeights p <> None <-> progress_step p)
  /\ (progress_step p -> p <> 0 ->
      number_property progressHeights p
      = Some ("after:ut-w-[" ++ JS.Number_toString p ++ "%]"))
  /\ (~ progress_step p ->
      uploading_class p
      = "ut-bg-blue-400 after:ut-absolute after:ut-left-0 after:ut-h-full after:ut-bg-blue-600 undefined").
Proof.
  split; [|split].
  - rewrite progress_step_keys. apply number_property_defined.
  - intros Hs H0. apply progress_step_keys in Hs. simpl in Hs.
    destruct Hs as [<- | Hs]; [congruence|].
    repeat (destruct Hs as [<- | Hs]; [reflexivity|]).
    contradiction.
  - intros Hs. unfold uploading_class.
    destruct (number_property progressHeights p) eqn:E; [|reflexivity].
    exfalso. apply Hs. apply progress_step_keys.
    apply number_property_defined. congruence.
Qed.

Lemma progress_class_witness :
  progress_step 70
  /\ 70 <> 0
  /\ number_property progressHeights 70 = Some "after:ut-w-[70%]".
Proof.
  assert (Hs : progress_step 70) by (split; [lia | reflexivity]).
  assert (H0 : 70 <> 0) by lia.
  split; [exact Hs|]. split; [exact H0|].
  exact (proj1 (proj2 (progress_class 70)) Hs H0).
Defined.

(** ** What the UploadButton shows *)


Lemma merged_description (props : UI_UploadButton) :
  ui_description (spread defaultUI_UploadButton props)
  = match ui_description props with
    | Some d => Some d
    | None => Some ""
    end.
Proof. simpl. now destruct (ui_description props). Qed.



(** X7: the paragraph under the button.  A non-empty [description] of the
    caller is shown as it is and the label generator is not run, so that
    nothing is thrown even for a config without keys; without one the
    paragraph is the generated label, and for a config without keys the
    rendering throws. *)
Theorem button_description (props : UI_UploadButton)
  (config : option ExpandedRouteConfig) :
  (forall d, ui_description props = Some d -> d <> "" ->
     UploadButton_description props config = Normal d)
  /\ (ui_description props = None \/ ui_description props = Some "" ->
      UploadButton_description props config
      = allowedContentTextLabelGenerator config)
  /\ (UploadButton_description props (Some []) = Throw TypeError
      <-> (ui_description props = None \/ ui_description props = Some "")).
Proof.
  unfold UploadButton_description. rewrite merged_description.
  split; [|split].
  - intros d -> Hne. destruct d; [congruence | reflexivity].
  - intros [-> | ->]; reflexivity.
  - destruct (ui_description props) as [[|c r]|]; simpl.
    + split; [now right | reflexivity].
    + split; [discriminate|]. intros [H|H]; discriminate.
    + split; [now left | reflexivity].
Qed.

Lemma button_description_witness :
  ui_description (mkUI None (Some "Image up to 4MB") None None None None)
  = Some "Image up to 4MB"
  /\ "Image up to 4MB" <> ""
  /\ UploadButton_description
       (mkUI None (Some "Image up to 4MB") None None None None) (Some [])
     = Normal "Image up to 4MB".
Proof.
  assert (Hne : "Image up to 4MB" <> "") by discriminate.
  split; [reflexivity|]. split; [exact Hne|].
  exact (proj1 (button_description
                  (mkUI None (Some "Image up to 4MB") None None None None)
                  (Some [])) "Image up to 4MB" eq_refl Hne).
Defined.

(** ** Runs of client events *)

Section Runs.

Context {Res Err File World : Type}.
Variable props : @UploadthingComponentProps Res Err World.

Lemma button_dispatch (ev : ClientEvent Res Err) (s : ButtonState * World) :
  snd (dispatch (UploadButton_hook props) ev s) = caller_dispatch props (snd s) ev
  /\ btn_uploadProgress (fst (dispatch (UploadButton_hook props) ev s))
     = match ev with
       | EvProgress p => p
       | EvComplete _ => 0
       | EvError _ => btn_uploadProgress (fst s)
       end
  /\ btn_inputValue (fst (dispatch (UploadButton_hook props) ev s))
     = match ev with
       | EvComplete _ => option_map (fun _ => "") (btn_inputValue (fst s))
       | _ => btn_inputValue (fst s)
       end.
Proof.
  destruct s as [st w]. destruct ev as [p|res|e]; simpl.
  - repeat split.
  - repeat split.
  - unfold fire_onUploadError. simpl.
    destruct (onUploadError props); repeat split.
Qed.

Lemma dropzone_dispatch (ev : ClientEvent Res Err)
  (s : DropzoneState File * World) :
  snd (dispatch (UploadDropzone_hook props) ev s)
  = caller_dispatch props (snd s) ev
  /\ dz_uploadProgress (fst (dispatch (UploadDropzone_hook props) ev s))
     = match ev with
       | EvProgress p => p
       | EvComplete _ => 0
       | EvError _ => dz_uploadProgress (fst s)
       end
  /\ dz_files (fst (dispatch (UploadDropzone_hook props) ev s))
     = match ev with
       | EvComplete _ => []
       | _ => dz_files (fst s)
       end.
Proof.
  destruct s as [st w]. destruct ev as [p|res|e]; simpl.
  - repeat split.
  - repeat split.
  - unfold fire_onUploadError. simpl.
    destruct (onUploadError props); repeat split.
Qed.

(** X8: whatever the events and the state of the widget, each event of the
    upload client reaches the caller's matching callback, once and in the
    order of the events; a callback the caller did not supply is skipped.
    The Button and the Dropzone hand the caller the same sequence. *)
Theorem callbacks_in_order (evs : list (ClientEvent Res Err))
  (bs : ButtonState) (ds : DropzoneState File) (w : World) :
  snd (run (UploadButton_hook props) evs (bs, w))
  = fold_left (caller_dispatch props) evs w
  /\ snd (run (UploadDropzone_hook props) evs (ds, w))
     = fold_left (caller_dispatch props) evs w.
Proof.
  unfold run. split.
  - revert bs w. induction evs as [|ev r IH]; intros bs w; [reflexivity|].
    cbn [fold_left].
    destruct (dispatch (UploadButton_hook props) ev (bs, w)) as [bs' w'] eqn:E.
    rewrite IH. f_equal.
    pose proof (proj1 (button_dispatch ev (bs, w))) as H.
    rewrite E in H. exact H.
  - revert ds w. induction evs as [|ev r IH]; intros ds w; [reflexivity|].
    cbn [fold_left].
    destruct (dispatch (UploadDropzone_hook props) ev (ds, w))
      as [ds' w'] eqn:E.
    rewrite IH. f_equal.
    pose proof (proj1 (dropzone_dispatch ev (ds, w))) as H.
    rewrite E in H. exact H.
Qed.

Lemma button_progress_invariant (evs : list (ClientEvent Res Err))
  (s : ButtonState * World) :
  let q := btn_uploadProgress (fst (run (UploadButton_hook props) evs s)) in
  q = btn_uploadProgress (fst s) \/ q = 0 \/ In (EvProgress q) evs.
Proof.
  unfold run. revert s. induction evs as [|ev r IH]; intros s; [now left|].
  cbn [fold_left]. cbv zeta in *.
  destruct (IH (dispatch (UploadButton_hook props) ev s)) as [H|[H|H]].
  - rewrite H.
    rewrite (proj1 (proj2 (button_dispatch ev s))).
    destruct ev as [p|res|e]; [right; right; now left | right; now left
                               | now left].
  - right. now left.
  - right. right. now right.
Qed.

Lemma dropzone_progress_invariant (evs : list (ClientEvent Res Err))
  (s : DropzoneState File * World) :
  let q := dz_uploadProgress (fst (run (UploadDropzone_hook props) evs s)) in
  q = dz_uploadProgress (fst s) \/ q = 0 \/ In (EvProgress q) evs.
Proof.
  unfold run. revert s. induction evs as [|ev r IH]; intros s; [now left|].
  cbn [fold_left]. cbv zeta in *.
  destruct (IH (dispatch (UploadDropzone_hook props) ev s)) as [H|[H|H]].
  - rewrite H.
    rewrite (proj1 (proj2 (dropzone_dispatch ev s))).
    destruct ev as [p|res|e]; [right; right; now left | right; now left
                               | now left].
  - right. now left.
  - right. right. now right.
Qed.

(** X9: starting from a fresh widget, the progress cell only ever holds 0
    or a value some progress event reported.  So when the client reports
    multiples of ten between 0 and 100 only, the width class looked up in
    [progressHeights] is defined after every run of events, in the Button
    and in the Dropzone. *)
Theorem progress_stays_on_steps (evs : list (ClientEvent Res Err))
  (w : World) :
  reports_steps evs ->
  number_property progressHeights
    (btn_uploadProgress
       (fst (run (UploadButton_hook props) evs (ButtonState_init, w))))
  <> None
  /\ number_property progressHeights
       (dz_uploadProgress
          (fst (run (UploadDropzone_hook props) evs
                  (DropzoneState_init File, w))))
     <> None.
Proof.
  intros Hsteps.
  assert (H0 : progress_step 0) by (split; [lia | reflexivity]).
  split; apply (proj1 (progress_class _)).
  - destruct (button_progress_invariant evs (ButtonState_init, w))
      as [H|[H|H]].
    + rewrite H. exact H0.
    + rewrite H. exact H0.
    + exact (Hsteps _ H).
  - destruct (dropzone_progress_invariant evs (DropzoneState_init File, w))
      as [H|[H|H]].
    + rewrite H. exact H0.
    + rewrite H. exact H0.
    + exact (Hsteps _ H).
Qed.

Lemma dropzone_files_kept (evs : list (ClientEvent Res Err))
  (s : DropzoneState File * World) :
  forallb (fun ev => negb (is_complete ev)) evs = true ->
  dz_files (fst (run (UploadDropzone_hook props) evs s)) = dz_files (fst s).
Proof.
  unfold run. revert s. induction evs as [|ev r IH]; intros s; [reflexivity|].
  cbn [forallb fold_left]. intros H. apply andb_true_iff in H.
  destruct H as [Hev Hr]. rewrite (IH _ Hr).
  rewrite (proj2 (proj2 (dropzone_dispatch ev s))).
  destruct ev; [reflexivity | discriminate Hev | reflexivity].
Qed.

(** X10: the selection of the Dropzone lives until completion.  Progress
    and error events leave the selected files as they are, so the upload
    trigger keeps its text; a completion event empties the selection and
    with it removes the trigger, whatever came before. *)
Theorem dropzone_selection_lifetime (evs : list (ClientEvent Res Err))
  (ds : DropzoneState File) (w : World) :
  (forallb (fun ev => negb (is_complete ev)) evs = true ->
   forall isUploading,
     UploadDropzone_trigger
       (dz_files (fst (run (UploadDropzone_hook props) evs (ds, w))))
       isUploading
     = UploadDropzone_trigger (dz_files ds) isUploading)
  /\ (forall res isUploading,
        fst (run (UploadDropzone_hook props) (evs ++ [EvComplete res])%list
               (ds, w))
        = DropzoneState_init File
        /\ UploadDropzone_trigger
             (dz_files
                (fst (run (UploadDropzone_hook props)
                        (evs ++ [EvComplete res])%list (ds, w))))
             isUploading
           = None).
Proof.
  split.
  - intros H isUploading. now rewrite (dropzone_files_kept evs (ds, w) H).
  - intros res isUploading. unfold run. rewrite fold_left_app.
    cbn [fold_left]. split; reflexivity.
Qed.

Lemma button_input_kept (evs : list (ClientEvent Res Err))
  (s : ButtonState * World) :
  forallb (fun ev => negb (is_complete ev)) evs = true ->
  btn_inputValue (fst (run (UploadButton_hook props) evs s))
  = btn_inputValue (fst s).
Proof.
  unfold run. revert s. induction evs as [|ev r IH]; intros s; [reflexivity|].
  cbn [forallb fold_left]. intros H. apply andb_true_iff in H.
  destruct H as [Hev Hr]. rewrite (IH _ Hr).
  rewrite (proj2 (proj2 (button_dispatch ev s))).
  destruct ev; [reflexivity | discriminate Hev | reflexivity].
Qed.

(** X11: the file input of the Button.  Progress and error events never
    touch its value; a completion event sets the value to the empty string
    when the ref is attached, leaves a null ref alone, and puts the
    progress back to 0, whatever came before. *)
Theorem button_input_lifetime (evs : list (ClientEvent Res Err))
  (bs : ButtonState) (w : World) :
  (forallb (fun ev => negb (is_complete ev)) evs = true ->
   btn_inputValue (fst (run (UploadButton_hook props) evs (bs, w)))
   = btn_inputValue bs)
  /\ (forall res,
        let after :=
          fst (run (UploadButton_hook props) (evs ++ [EvComplete res])%list
                 (bs, w)) in
        btn_uploadProgress after = 0
        /\ (btn_inputValue after = None
            <-> btn_inputValue
                  (fst (run (UploadButton_hook props) evs (bs, w))) = None)
        /\ (btn_inputValue after <> None -> btn_inputValue after = Some "")).
Proof.
  split.
  - intros H. exact (button_input_kept evs (bs, w) H).
  - intros res after. subst after. unfold run. rewrite fold_left_app.
    cbn [fold_left].
    set (s := fold_left _ evs (bs, w)).
    pose proof (button_dispatch (EvComplete res) s) as (_ & Hp & Hv).
    rewrite Hp, Hv. split; [reflexivity|].
    destruct (btn_inputValue (fst s)); simpl.
    + split; [split; discriminate | reflexivity].
    + split; [split; reflexivity | congruence].
Qed.

End Runs.

Lemma progress_stays_on_steps_witness :
  @reports_steps string string
    [EvProgress 10; EvError "network error"; EvProgress 40]
  /\ number_property progressHeights
       (btn_uploadProgress
          (fst (run (UploadButton_hook recording_props)
                  [EvProgress 10; EvError "network error"; EvProgress 40]
                  (ButtonState_init, []))))
     <> None.
Proof.
  assert (Hs : @reports_steps string string
                 [EvProgress 10; EvError "network error"; EvProgress 40]).
  { intros p [H|[H|[H|[]]]]; try discriminate H;
      injection H as <-; (split; [lia | reflexivity]). }
  split; [exact Hs|].
  exact (proj1 (@progress_stays_on_steps string string string
                  (list string) recording_props _ [] Hs)).
Defined.

Lemma dropzone_selection_lifetime_witness :
  forallb (fun ev => negb (is_complete ev))
    [@EvProgress string string 10; EvError "network error"] = true
  /\ UploadDropzone_trigger
       (dz_files
          (fst (run (UploadDropzone_hook recording_props)
                  [EvProgress 10; EvError "network error"]
                  (mkDropzone ["a.png"; "b.png"] 0, []))))
       false
     = Some (Text "Upload 2 files").
Proof.
  split; [reflexivity|].
  exact (proj1 (dropzone_selection_lifetime recording_props
                  [EvProgress 10; EvError "network error"]
                  (mkDropzone ["a.png"; "b.png"] 0) [])
           eq_refl false).
Defined.

Lemma button_input_lifetime_witness :
  forallb (fun ev => negb (is_complete ev))
    [@EvProgress string string 10; EvError "network error"] = true
  /\ btn_inputValue
       (fst (run (UploadButton_hook recording_props)
               [EvProgress 10; EvError "network error"]
               (mkButton (Some "a.png") 0, [])))
     = Some "a.png".
Proof.
  split; [reflexivity|].
  exact (proj1 (button_input_lifetime recording_props
                  [EvProgress 10; EvError "network error"]
                  (mkButton (Some "a.png") 0) [])
           eq_refl).
Defined.

(** ** The label and the picker agree *)

(** X12: for a config with a single key the file picker and the label
    follow the same test: when [multiple] is true the formatter writes the
    ["<token>s up to <size>, max <count>"] form, and when it is false the
    ["<token> (<size>)"] form. *)
Theorem single_type_label_follows_multiple (k : string) (lim : RouteLimits) :
  (multiple (generatePermittedFileTypes (Some [(k, lim)])) = true ->
   INTERNAL_doFormatting (Some [(k, lim)])
   = Normal (spec_token k ++ "s up to " ++ maxFileSize lim ++ ", max "
             ++ JS.template_number (maxFileCount lim)))
  /\ (multiple (generatePermittedFileTypes (Some [(k, lim)])) = false ->
      INTERNAL_doFormatting (Some [(k, lim)])
      = Normal (spec_token k ++ " (" ++ maxFileSize lim ++ ")")).
Proof.
  rewrite doFormatting_single.
  assert (Hm : multiple (generatePermittedFileTypes (Some [(k, lim)]))
               = JS.truthy (and_gt_one (maxFileCount lim))).
  { unfold generatePermittedFileTypes, JS.some. simpl.
    apply orb_false_r. }
  rewrite Hm. split; intros ->; reflexivity.
Qed.

Lemma single_type_label_follows_multiple_witness :
  multiple (generatePermittedFileTypes
              (Some [("image/png", mkLimits "4MB" (Some 5))])) = true
  /\ INTERNAL_doFormatting (Some [("image/png", mkLimits "4MB" (Some 5))])
     = Normal "PNG files up to 4MB, max 5".
Proof.
  split; [reflexivity|].
  exact (proj1 (single_type_label_follows_multiple "image/png"
                  (mkLimits "4MB" (Some 5))) eq_refl).
Defined.

(** ** What of a MIME key reaches the label *)

Lemma toUpperCase_char_slash (c : ascii) :
  Ascii.eqb (JS.toUpperCase_char c) slash = Ascii.eqb c slash.
Proof.
  destruct c as [[] [] [] [] [] [] [] []]; reflexivity.
Qed.

Lemma includes_toUpperCase (s : string) :
  JS.includes (JS.toUpperCase s) slash = JS.includes s slash.
Proof.
  induction s as [|c r IH]; simpl; [reflexivity|].
  now rewrite toUpperCase_char_slash, IH.
Qed.

(** X13: of a key [category/subtype] the category never reaches the label
    and the case of the subtype does not matter: two such keys whose
    subtypes agree up to case get the same token. *)
Theorem token_depends_on_subtype (cat1 cat2 sub1 sub2 : string) :
  JS.includes cat1 slash = false ->
  JS.includes cat2 slash = false ->
  JS.includes sub1 slash = false ->
  JS.toUpperCase sub1 = JS.toUpperCase sub2 ->
  formatType (cat1 ++ "/" ++ sub1) = formatType (cat2 ++ "/" ++ sub2).
Proof.
  intros H1 H2 Hs1 Hup.
  assert (Hs2 : JS.includes sub2 slash = false).
  { rewrite <- includes_toUpperCase, <- Hup, includes_toUpperCase.
    exact Hs1. }
  rewrite !formatType_spec. unfold spec_token.
  destruct (spec_subtype_mime cat1 sub1 H1 Hs1) as [-> ->].
  destruct (spec_subtype_mime cat2 sub2 H2 Hs2) as [-> ->].
  now rewrite Hup.
Qed.

Lemma token_depends_on_subtype_witness :
  JS.includes "image" slash = false
  /\ JS.includes "video" slash = false
  /\ JS.includes "png" slash = false
  /\ JS.toUpperCase "png" = JS.toUpperCase "Png"
  /\ formatType "image/png" = formatType "video/Png".
Proof.
  repeat (split; [reflexivity|]).
  exact (token_depends_on_subtype "image" "video" "png" "Png"
           eq_refl eq_refl eq_refl eq_refl).
Defined.
